(** * ski-game: the obstacle catalogue and the game orchestrator

    A shallow embedding of [src/Entities/Obstacles/Obstacle.ts] and of the
    [Game] class (the orchestrator: tick, draw, key dispatch, score).

    Conventions.
    - A JavaScript [number] that holds a coordinate, a weight or a random
      draw is a rational ([Q]).  Doubles are dyadic rationals, and on the
      one path that computes with them here (the weighted draw) every
      subtraction takes an integer weight away from a value that is at least
      as large, which is exact in binary floating point; comparisons are
      exact anyway.
    - The score and the clock are integer valued and are modelled in [Z].
    - A method that mutates [this] is a function from the old object to the
      new one; calls to the drawing surface, to the event and to the frame
      scheduler are recorded, in order, in a list of [Effect]s.
    - [Math.random()] and [Date.now()] are inputs of the functions that
      call them. *)

From Stdlib Require Import ZArith QArith List String Bool Lia Lqa.
From Stdlib Require Import DecimalString.
Import ListNotations.

Local Open Scope Q_scope.

(** ** Numbers *)

Definition number : Type := Q.

(** [a < b] on numbers, as a boolean. *)
Definition Qlt_bool (a b : number) : bool := negb (Qle_bool b a).

(** ** Constants.ts: image names

    Modelled from the spec: the [IMAGE_NAMES] enumeration of [Constants.ts],
    which is not part of the sources.  The five names below are the ones the
    obstacle catalogue uses; [OTHER_IMAGE] stands for every other member of
    the enumeration (the images of the skier and of the rhino). *)
Inductive IMAGE_NAMES : Type :=
| TREE
| TREE_CLUSTER
| ROCK1
| ROCK2
| JUMP_RAMP
| OTHER_IMAGE (name : string).

(** ** Obstacle.ts *)

Module Obstacle.

(** [iObstacleType]: an entry of the catalogue. *)
Record iObstacleType : Type := mkType {
  type_imageName : IMAGE_NAMES;
  type_weight : number
}.

Definition OBSTACLE_TYPES : list iObstacleType :=
  [ mkType TREE 30;
    mkType TREE_CLUSTER 30;
    mkType ROCK1 20;
    mkType ROCK2 10;
    mkType JUMP_RAMP 10 ].

(** An [Obstacle] instance.  [x], [y] are the position the [Entity] base
    class stores; [imageName] and [weight] are the fields declared in
    [Obstacle.ts] ([weight] is initialised to 0 and never assigned). *)
Record Obstacle : Type := mkObstacle {
  x : number;
  y : number;
  imageName : IMAGE_NAMES;
  weight : number
}.

(** The [map] callback of [getRandomObstacleType]: it returns the weight of
    the entry and, as a side effect, adds it to [totalWeight].  The
    accumulator is the pair (totalWeight, weights mapped so far). *)
Definition map_callback (acc : number * list number) (type : iObstacleType)
  : number * list number :=
  let weight := type_weight type in
  (fst acc + weight, snd acc ++ [weight]).

Definition map_weights (types : list iObstacleType) : number * list number :=
  fold_left map_callback types (0, []).

(** The [for] loop: [Some i] when the loop returns [i], [None] when it
    runs to the end of [weights].  [ws] is the part of [weights] from
    index [i] on. *)
Fixpoint for_loop (ws : list number) (i : nat) (randomNum : number)
  : option nat :=
  match ws with
  | [] => None
  | w :: rest =>
      if Qlt_bool randomNum w then Some i
      else for_loop rest (S i) (randomNum - w)
  end.

(** [getRandomObstacleType], with the result of [Math.random()] as its
    argument. *)
Definition getRandomObstacleType (random : number) : nat :=
  let '(totalWeight, weights) := map_weights OBSTACLE_TYPES in
  let randomNum := random * totalWeight in
  match for_loop weights 0 randomNum with
  | Some i => i
  | None => (List.length OBSTACLE_TYPES - 1)%nat
  end.

(** The constructor.  Indexing the catalogue out of range yields
    [undefined] in JavaScript, and reading [.imageName] of it throws: that
    is [None] here. *)
Definition constructor (x y : number) (random : number) : option Obstacle :=
  let typeIdx := getRandomObstacleType random in
  match nth_error OBSTACLE_TYPES typeIdx with
  | Some type => Some (mkObstacle x y (type_imageName type) 0)
  | None => None
  end.

(** [die() {}]: the obstacle afterwards, and the effects performed (there
    is no effect to record, whatever the type of effects is). *)
Definition die {Effect : Type} (this : Obstacle) : Obstacle * list Effect :=
  (this, []).

(** Quantities the statements use. *)

Definition totalWeight : number := fst (map_weights OBSTACLE_TYPES).
Definition weights : list number := snd (map_weights OBSTACLE_TYPES).

(** Sum of the first [j] elements of a list of weights. *)
Definition before (ws : list number) (j : nat) : number :=
  fold_right Qplus 0 (firstn j ws).

(** Sum of the weights of the entries before index [i]. *)
Definition weight_before (i : nat) : number := before weights i.

(** Weight of entry [i] (0 out of range). *)
Definition weight_at (i : nat) : number := nth i weights 0.

(** [r] lies in the half-open interval of entry [i]. *)
Definition in_slot (r : number) (i : nat) : Prop :=
  weight_before i <= r /\ r < weight_before i + weight_at i.

Definition catalog_image_names : list IMAGE_NAMES :=
  [TREE; TREE_CLUSTER; ROCK1; ROCK2; JUMP_RAMP].

(** The index and the image a value of [Math.random()] selects, read off the
    cumulated weights 30, 60, 80, 90 out of 100. *)
Definition index_of_draw (random : number) : nat :=
  if Qlt_bool random (3 # 10) then 0
  else if Qlt_bool random (6 # 10) then 1
  else if Qlt_bool random (8 # 10) then 2
  else if Qlt_bool random (9 # 10) then 3
  else 4.



End Obstacle.

(** ** Utils.ts: positions and rectangles *)

Record Position : Type := mkPosition { pos_x : number; pos_y : number }.

Record Rect : Type := mkRect {
  left : number;
  top : number;
  right : number;
  bottom : number
}.

(** ** Skier.ts: the states of the skier

    Modelled from the spec: the [STATES] enumeration of [Entities/Skier.ts],
    which is not part of the sources; the spec lists its five members. *)
Inductive STATES : Type :=
| STATE_SKIING
| STATE_JUMPING
| STATE_CRASHED
| STATE_DEAD
| STATE_FLIPPING.

(** ** What the orchestrator is handed

    [Constants.ts] and the classes [Canvas], [Skier], [Rhino] and
    [ObstacleManager] are not part of the sources.  The orchestrator is
    modelled over any implementation of them.  None of these classes holds a
    reference to the [Game] object, so their methods are functions of the
    objects they are given: the skier is constructed with the obstacle
    manager, the rhino's [update] receives the skier. *)

(** The calls to [Math.random()] a method makes, in order. *)
Definition Random : Type := list number.

Class Constants : Type := {
  GAME_CANVAS : string;
  GAME_WIDTH : number;
  GAME_HEIGHT : number;
  KEYS_P : string;
  KEYS_ESC : string
}.

Class Entities : Type := {
  Canvas : Type;
  Canvas_new : string -> number -> number -> Canvas;
  Canvas_width : Canvas -> number;
  Canvas_height : Canvas -> number;

  ImageManager : Type;
  ImageManager_new : ImageManager;

  ObstacleManager : Type;
  ObstacleManager_new : ImageManager -> Canvas -> ObstacleManager;
  placeInitialObstacles : Random -> ObstacleManager -> ObstacleManager;
  placeNewObstacle : Random -> Rect -> Rect -> ObstacleManager -> ObstacleManager;

  Skier : Type;
  Skier_new :
    number -> number -> ImageManager -> ObstacleManager -> Canvas -> Skier;
  Skier_state : Skier -> STATES;
  Skier_getPosition : Skier -> Position;
  Skier_handleInput : string -> ObstacleManager -> Skier -> Skier * bool;
  Skier_update : Z -> ObstacleManager -> Skier -> Skier;

  Rhino : Type;
  Rhino_new : number -> number -> ImageManager -> Canvas -> Rhino;
  Rhino_update : Z -> Skier -> Rhino -> Rhino * Skier
}.

(** ** Effects *)

Inductive FillStyle : Type :=
| rgba (r g b : Z) (a : number)
| colour (name : string).

Inductive Effect : Type :=
| clearCanvas
| setDrawOffset (x y : number)
| skier_draw
| rhino_draw
| drawObstacles
| ctx_fillStyle (style : FillStyle)
| ctx_fillRect (x y w h : number)
| ctx_font (font : string)
| ctx_textAlign (align : string)
| ctx_fillText (text : string) (x y : number)
| preventDefault
| addEventListener (type : string)
| loadImages
| requestAnimationFrame.

(** A draw call of one of the entities. *)
Definition is_entity_draw (e : Effect) : bool :=
  match e with
  | skier_draw | rhino_draw | drawObstacles => true
  | _ => false
  end.

(** The two calls that frame a frame: clearing the canvas and requesting the
    next frame. *)
Definition is_frame_control (e : Effect) : bool :=
  match e with
  | clearCanvas | requestAnimationFrame => true
  | _ => false
  end.

(** [`${n}`] for an integer valued number. *)
Definition number_toString (n : Z) : string :=
  NilZero.string_of_int (Z.to_int n).

(** ** [switch] without [break]

    A [switch] whose clauses have no [break]: control enters at the first
    [case] whose label is the scrutinee, or at [default] when there is none,
    and runs every clause body from there to the end. *)
Section Switch.
Context {St : Type}.

(** A clause: [Some l] is [case l:], [None] is [default:]. *)
Definition clause : Type := option string * (St -> St).

Definition run_bodies (cs : list clause) (s : St) : St :=
  fold_left (fun s c => snd c s) cs s.

Fixpoint from_case (key : string) (cs : list clause) : option (list clause) :=
  match cs with
  | [] => None
  | (Some l, b) :: rest =>
      if String.eqb key l then Some ((Some l, b) :: rest)
      else from_case key rest
  | (None, _) :: rest => from_case key rest
  end.

Fixpoint from_default (cs : list clause) : option (list clause) :=
  match cs with
  | [] => None
  | (None, b) :: rest => Some ((None, b) :: rest)
  | (Some _, _) :: rest => from_default rest
  end.

Definition switch (key : string) (cs : list clause) (s : St) : St :=
  match from_case key cs with
  | Some entered => run_bodies entered s
  | None =>
      match from_default cs with
      | Some entered => run_bodies entered s
      | None => s
      end
  end.
End Switch.
Arguments clause : clear implicits.

(** ** Game.ts *)

Section Game.
Context {K : Constants} {E : Entities}.

Record Game : Type := mkGame {
  canvas : Canvas;
  gameWindow : Rect;
  gameTime : Z;
  imageManager : ImageManager;
  obstacleManager : ObstacleManager;
  paused : bool;
  score : Z;
  skier : Skier;
  rhino : Rhino
}.

(** Field assignments. *)

Definition set_gameWindow (this : Game) (v : Rect) : Game :=
  mkGame (canvas this) v (gameTime this)
         (imageManager this) (obstacleManager this) (paused this)
         (score this) (skier this) (rhino this).

Definition set_gameTime (this : Game) (v : Z) : Game :=
  mkGame (canvas this) (gameWindow this) v
         (imageManager this) (obstacleManager this) (paused this)
         (score this) (skier this) (rhino this).

Definition set_obstacleManager (this : Game) (v : ObstacleManager) : Game :=
  mkGame (canvas this) (gameWindow this) (gameTime this)
         (imageManager this) v (paused this)
         (score this) (skier this) (rhino this).

Definition set_paused (this : Game) (v : bool) : Game :=
  mkGame (canvas this) (gameWindow this) (gameTime this)
         (imageManager this) (obstacleManager this) v
         (score this) (skier this) (rhino this).

Definition set_score (this : Game) (v : Z) : Game :=
  mkGame (canvas this) (gameWindow this) (gameTime this)
         (imageManager this) (obstacleManager this) (paused this)
         v (skier this) (rhino this).

Definition set_skier (this : Game) (v : Skier) : Game :=
  mkGame (canvas this) (gameWindow this) (gameTime this)
         (imageManager this) (obstacleManager this) (paused this)
         (score this) v (rhino this).

Definition set_rhino (this : Game) (v : Rhino) : Game :=
  mkGame (canvas this) (gameWindow this) (gameTime this)
         (imageManager this) (obstacleManager this) (paused this)
         (score this) (skier this) v.

(** [calculateGameWindow] *)
Definition calculateGameWindow (this : Game) : Game :=
  let skierPosition := Skier_getPosition (skier this) in
  let left := pos_x skierPosition - GAME_WIDTH / 2 in
  let top := pos_y skierPosition - GAME_HEIGHT / 2 in
  set_gameWindow this (mkRect left top (left + GAME_WIDTH) (top + GAME_HEIGHT)).

(** [setupInputHandling] *)
Definition setupInputHandling (this : Game) : list Effect :=
  [addEventListener "keydown"].

(** [init].  It assigns the fields that hold objects and the game window;
    the three other fields are the arguments [gameTime], [paused] and
    [score].  [rnd] holds the random draws of [placeInitialObstacles]. *)
Definition init (rnd : Random) (gameTime : Z) (paused : bool) (score : Z)
  : Game :=
  let canvas0 := Canvas_new GAME_CANVAS GAME_WIDTH GAME_HEIGHT in
  let imageManager0 := ImageManager_new in
  let obstacleManager0 := ObstacleManager_new imageManager0 canvas0 in
  let skier0 := Skier_new 0 0 imageManager0 obstacleManager0 canvas0 in
  let rhino0 := Rhino_new (-500) (-2000) imageManager0 canvas0 in
  let this :=
    mkGame canvas0 (mkRect 0 0 0 0) gameTime imageManager0 obstacleManager0
           paused score skier0 rhino0 in
  let this := calculateGameWindow this in
  set_obstacleManager this (placeInitialObstacles rnd (obstacleManager this)).

(** [load]: the images are loaded by the image manager. *)
Definition load (this : Game) : list Effect := [loadImages].

(** The constructor: the field initialiser of [gameTime], then [init],
    [setupInputHandling] and the two assignments.  [now] is the result of
    [Date.now()].  Nothing reads [paused] and [score] before the constructor
    assigns them; [init] is handed the values they are about to get. *)
Definition constructor (now : Z) (rnd : Random) : Game * list Effect :=
  let this := init rnd now false 0%Z in
  let effects := setupInputHandling this in
  let this := set_paused this false in
  let this := set_score this 0%Z in
  (this, effects).

(** [updateGameScore] *)
Definition updateGameScore (this : Game) : Game :=
  match Skier_state (skier this) with
  | STATE_SKIING => set_score this (score this + 1)%Z
  | STATE_JUMPING => set_score this (score this + 10)%Z
  | STATE_FLIPPING => set_score this (score this + 100)%Z
  | _ => this
  end.

(** [updateGameWindow].  [now] is the result of [Date.now()], [rnd] the
    random draws of [placeNewObstacle]. *)
Definition updateGameWindow (now : Z) (rnd : Random) (this : Game) : Game :=
  if paused this then this
  else
    let this := set_gameTime this now in
    let this := updateGameScore this in
    let previousGameWindow := gameWindow this in
    let this := calculateGameWindow this in
    let this :=
      set_obstacleManager this
        (placeNewObstacle rnd (gameWindow this) previousGameWindow
           (obstacleManager this)) in
    let this :=
      set_skier this
        (Skier_update (gameTime this) (obstacleManager this) (skier this)) in
    let '(rhino', skier') :=
      Rhino_update (gameTime this) (skier this) (rhino this) in
    set_skier (set_rhino this rhino') skier'.

(** [drawMenuMessage], on the context of the canvas. *)
Definition drawMenuMessage (message : string) (menuOpacity : number)
  (this : Game) : list Effect :=
  [ ctx_fillStyle (rgba 0 0 0 menuOpacity);
    ctx_fillRect 0 0 (Canvas_width (canvas this)) (Canvas_height (canvas this));
    ctx_font "30px Arial";
    ctx_fillStyle (colour "white");
    ctx_textAlign "center";
    ctx_fillText message
      (Canvas_width (canvas this) / 2) (Canvas_height (canvas this) / 2) ].

(** [drawScore] *)
Definition drawScore (this : Game) : list Effect :=
  [ ctx_font "20px Arial";
    ctx_fillStyle (colour "black");
    ctx_textAlign "left";
    ctx_fillText ("Score: " ++ number_toString (score this)) 10 30 ].

Definition paused_message (this : Game) : string :=
  "Game paused! Your score is " ++ number_toString (score this) ++ "!".

Definition crashed_message : string :=
  "You crashed! You can keep moving. Be aware of the obstacles!".

Definition dead_message (this : Game) : string :=
  "Game over! Your score was " ++ number_toString (score this) ++ "!".

(** [drawMenuMessages]: three [if]s in a row. *)
Definition drawMenuMessages (this : Game) : list Effect :=
  (if paused this
   then drawMenuMessage (paused_message this) (1 # 2) this else [])
  ++
  (match Skier_state (skier this) with
   | STATE_CRASHED => drawMenuMessage crashed_message (2 # 10) this
   | _ => []
   end)
  ++
  (match Skier_state (skier this) with
   | STATE_DEAD => drawMenuMessage (dead_message this) (1 # 2) this
   | _ => []
   end).

(** [drawGameWindow] *)
Definition drawGameWindow (this : Game) : list Effect :=
  [ setDrawOffset (left (gameWindow this)) (top (gameWindow this)) ]
  ++ [ skier_draw ]
  ++ [ rhino_draw ]
  ++ [ drawObstacles ]
  ++ drawScore this
  ++ drawMenuMessages this.

(** [run]: one frame. *)
Definition run (now : Z) (rnd : Random) (this : Game) : Game * list Effect :=
  let this' := updateGameWindow now rnd this in
  (this', [clearCanvas] ++ drawGameWindow this' ++ [requestAnimationFrame]).

(** [pause] and [resume] *)
Definition pause (this : Game) : Game :=
  match Skier_state (skier this) with
  | STATE_SKIING => set_paused this true
  | _ => this
  end.

Definition resume (this : Game) : Game := set_paused this false.

(** [handleKeyDown].  The state of the [switch] is the game together with
    the local variable [handled].  The clauses are the ones of the source:
    [case KEYS.P:] (empty), [case KEYS.ESC:] (the conditional expression,
    no [break]) and [default:]. *)
Definition handleKeyDown_clauses : list (clause (Game * bool)) :=
  [ (Some KEYS_P, fun s => s);
    (Some KEYS_ESC,
      fun s => ((if paused (fst s) then resume (fst s) else pause (fst s)), snd s));
    (None, fun s => (fst s, false)) ].

Definition handleKeyDown (key : string) (this : Game) : Game * list Effect :=
  let '(skier', handled) :=
    Skier_handleInput key (obstacleManager this) (skier this) in
  let this := set_skier this skier' in
  let '(this, handled) := switch key handleKeyDown_clauses (this, handled) in
  (this, if handled then [preventDefault] else []).

(** The keys of the two [case] labels. *)
Definition is_pause_key (key : string) : bool :=
  String.eqb key KEYS_P || String.eqb key KEYS_ESC.

(** A call of a method of [Game] after construction, with its inputs. *)
Inductive Call : Type :=
| call_run (now : Z) (rnd : Random)
| call_updateGameWindow (now : Z) (rnd : Random)
| call_drawGameWindow
| call_calculateGameWindow
| call_handleKeyDown (key : string)
| call_pause
| call_resume
| call_drawMenuMessage (message : string) (menuOpacity : number)
| call_drawScore
| call_drawMenuMessages
| call_updateGameScore
| call_init (rnd : Random)
| call_setupInputHandling
| call_load.

Definition perform (c : Call) (this : Game) : Game * list Effect :=
  match c with
  | call_run now rnd => run now rnd this
  | call_updateGameWindow now rnd => (updateGameWindow now rnd this, [])
  | call_drawGameWindow => (this, drawGameWindow this)
  | call_calculateGameWindow => (calculateGameWindow this, [])
  | call_handleKeyDown key => handleKeyDown key this
  | call_pause => (pause this, [])
  | call_resume => (resume this, [])
  | call_drawMenuMessage message menuOpacity =>
      (this, drawMenuMessage message menuOpacity this)
  | call_drawScore => (this, drawScore this)
  | call_drawMenuMessages => (this, drawMenuMessages this)
  | call_updateGameScore => (updateGameScore this, [])
  | call_init rnd => (init rnd (gameTime this) (paused this) (score this), [])
  | call_setupInputHandling => (this, setupInputHandling this)
  | call_load => (this, load this)
  end.

(** The calls of the frame loop: [run] and the methods it calls that do not
    depend on a key. *)
Definition is_frame_call (c : Call) : bool :=
  match c with
  | call_run _ _ | call_updateGameWindow _ _ | call_drawGameWindow
  | call_drawMenuMessage _ _ | call_drawScore | call_drawMenuMessages => true
  | _ => false
  end.

(** A sequence of calls, from left to right. *)
Fixpoint perform_all (cs : list Call) (this : Game) : Game * list Effect :=
  match cs with
  | [] => (this, [])
  | c :: rest =>
      let '(this1, effects1) := perform c this in
      let '(this2, effects2) := perform_all rest this1 in
      (this2, effects1 ++ effects2)
  end.

(** The points a call of [updateGameScore] adds for a state. *)
Definition points (s : STATES) : Z :=
  match s with
  | STATE_SKIING => 1
  | STATE_JUMPING => 10
  | STATE_FLIPPING => 100
  | STATE_CRASHED | STATE_DEAD => 0
  end.

End Game.

(** ** The entities as the spec describes them

    [Entities/Skier.ts], [Entities/Rhino.ts] and
    [Entities/Obstacles/ObstacleManager.ts] are not part of the sources.
    What follows is the part of their behaviour that the spec states
    (sections 4.1, 4.5 and 4.6); what the spec leaves open (asset sizes,
    speeds, frame budgets, key bindings, the placement policy, the rhino's
    own motion) is a parameter. *)

(** Modelled from the spec: the [direction] of the skier, "drawn from
    {LEFT, LEFT_DOWN, DOWN, RIGHT_DOWN, RIGHT}". *)
Inductive DIRECTION : Type :=
| LEFT
| LEFT_DOWN
| DOWN
| RIGHT_DOWN
| RIGHT.

(** Modelled from the spec: [Rect.intersects] of [Core/Utils.ts],
    "a.right > b.left && a.left < b.right && a.bottom > b.top &&
    a.top < b.bottom". *)
Definition intersects (a b : Rect) : bool :=
  Qlt_bool (left b) (right a) && Qlt_bool (left a) (right b)
  && Qlt_bool (top b) (bottom a) && Qlt_bool (top a) (bottom b).

(** Translation of a position by a velocity vector. *)
Definition translate (p v : Position) : Position :=
  mkPosition (pos_x p + pos_x v) (pos_y p + pos_y v).

(** Modelled from the spec: the fields of a [Skier] (section 3): position,
    state, direction and the progress of the jump and flip sequences. *)
Record SkierFields : Type := mkSkier {
  position : Position;
  state : STATES;
  direction : DIRECTION;
  jumpFrame : nat;
  flipFrame : nat
}.

Definition with_position (s : SkierFields) (p : Position) : SkierFields :=
  mkSkier p (state s) (direction s) (jumpFrame s) (flipFrame s).

Definition with_state (s : SkierFields) (st : STATES) : SkierFields :=
  mkSkier (position s) st (direction s) (jumpFrame s) (flipFrame s).

(** Modelled from the spec: a [Canvas] of [Core/Canvas.ts], reduced to the
    [width] and [height] that [Game.ts] reads from it; it keeps the ones it
    is constructed with. *)
Record CanvasFields : Type := mkCanvas {
  width : number;
  height : number
}.

Section SpecEntities.
(** "each direction maps to a fixed (dx, dy) velocity" *)
Variable velocity : DIRECTION -> Position.
(** Bounding boxes, which depend on the sizes of the image assets. *)
Variable skierBounds : SkierFields -> Rect.
Variable obstacleBounds : Obstacle.Obstacle -> Rect.
(** Final index of the jump animation, and the frame budget of a flip. *)
Variable JUMP_FINAL_INDEX : nat.
Variable FLIP_FRAME_BUDGET : nat.
(** The key bindings of the skier. *)
Variable handleInput :
  string -> list Obstacle.Obstacle -> SkierFields -> SkierFields * bool.
(** The placement policy of the obstacle manager. *)
Variable placeInitial : Random -> list Obstacle.Obstacle -> list Obstacle.Obstacle.
Variable placeNew :
  Random -> Rect -> Rect -> list Obstacle.Obstacle -> list Obstacle.Obstacle.
(** The rhino: its fields, its bounds and its own pursuit step. *)
Variable RhinoFields : Type.
Variable rhinoNew : number -> number -> RhinoFields.
Variable rhinoBounds : RhinoFields -> Rect.
Variable rhinoStep : Z -> SkierFields -> RhinoFields -> RhinoFields.

(** Modelled from the spec: the movement of [Skier.update], "advances
    position += velocity once per tick when state is one of SKIING,
    JUMPING, FLIPPING; CRASHED/DEAD contribute zero velocity". *)
Definition move (s : SkierFields) : SkierFields :=
  match state s with
  | STATE_SKIING | STATE_JUMPING | STATE_FLIPPING =>
      with_position s (translate (position s) (velocity (direction s)))
  | STATE_CRASHED | STATE_DEAD => s
  end.

(** Modelled from the spec: the sequencing of [Skier.update], "JUMPING ->
    SKIING: jump-animation frame reaches its final index" and a flip
    "expiring after a fixed frame budget", back to JUMPING. *)
Definition sequence (s : SkierFields) : SkierFields :=
  match state s with
  | STATE_JUMPING =>
      if (JUMP_FINAL_INDEX <=? jumpFrame s)%nat
      then mkSkier (position s) STATE_SKIING (direction s) 0 0
      else mkSkier (position s) STATE_JUMPING (direction s)
                   (S (jumpFrame s)) (flipFrame s)
  | STATE_FLIPPING =>
      if (FLIP_FRAME_BUDGET <=? flipFrame s)%nat
      then mkSkier (position s) STATE_JUMPING (direction s) (jumpFrame s) 0
      else mkSkier (position s) STATE_FLIPPING (direction s)
                   (jumpFrame s) (S (flipFrame s))
  | _ => s
  end.

(** An obstacle that crashes a skier who touches it: any but a jump ramp. *)
Definition crashes (o : Obstacle.Obstacle) : bool :=
  match Obstacle.imageName o with
  | JUMP_RAMP => false
  | _ => true
  end.

(** Modelled from the spec: the collision query of [Skier.update],
    "SKIING -> CRASHED: triggered when the skier's bounds intersect a
    non-jump, collidable obstacle's bounds while SKIING"; airborne, crashed
    and dead skiers are left as they are. *)
Definition checkIfHitObstacle (obstacles : list Obstacle.Obstacle)
  (s : SkierFields) : SkierFields :=
  match state s with
  | STATE_SKIING =>
      if existsb
           (fun o => crashes o && intersects (skierBounds s) (obstacleBounds o))
           obstacles
      then with_state s STATE_CRASHED
      else s
  | _ => s
  end.

(** Modelled from the spec: [Skier.update] of [Entities/Skier.ts]: move,
    then sequence the jump, then "after moving, the skier asks
    ObstacleManager for all obstacles whose bounds intersect its own". *)
Definition Skier_update_spec (currentTime : Z)
  (obstacles : list Obstacle.Obstacle) (s : SkierFields) : SkierFields :=
  checkIfHitObstacle obstacles (sequence (move s)).

(** Modelled from the spec: [Rhino.update] of [Entities/Rhino.ts], as far
    as the skier is concerned: "CRASHED -> DEAD: triggered when the skier's
    bounds intersect the enemy's bounds while CRASHED".  The rhino itself
    takes its pursuit step. *)
Definition Rhino_update_spec (currentTime : Z) (s : SkierFields)
  (r : RhinoFields) : RhinoFields * SkierFields :=
  let r' := rhinoStep currentTime s r in
  match state s with
  | STATE_CRASHED =>
      if intersects (skierBounds s) (rhinoBounds r')
      then (r', with_state s STATE_DEAD)
      else (r', s)
  | _ => (r', s)
  end.

(** The entities of the spec, as the orchestrator sees them.  A skier is
    created "SKIING", facing "DOWN". *)
Definition spec_entities : Entities := {|
  Canvas := CanvasFields;
  Canvas_new := fun _ w h => mkCanvas w h;
  Canvas_width := width;
  Canvas_height := height;
  ImageManager := unit;
  ImageManager_new := tt;
  ObstacleManager := list Obstacle.Obstacle;
  ObstacleManager_new := fun _ _ => [];
  placeInitialObstacles := placeInitial;
  placeNewObstacle := placeNew;
  Skier := SkierFields;
  Skier_new := fun x y _ _ _ => mkSkier (mkPosition x y) STATE_SKIING DOWN 0 0;
  Skier_state := state;
  Skier_getPosition := position;
  Skier_handleInput := handleInput;
  Skier_update := Skier_update_spec;
  Rhino := RhinoFields;
  Rhino_new := fun x y _ _ => rhinoNew x y;
  Rhino_update := Rhino_update_spec
|}.

End SpecEntities.

(** ** A sample game, for the examples *)

Module Sample.

Definition constants : Constants := {|
  GAME_CANVAS := "skiCanvas";
  GAME_WIDTH := 800;
  GAME_HEIGHT := 500;
  KEYS_P := "p";
  KEYS_ESC := "Escape"
|}.

Definition velocity (d : DIRECTION) : Position :=
  match d with
  | LEFT | RIGHT => mkPosition 0 0
  | LEFT_DOWN => mkPosition (-7) 7
  | DOWN => mkPosition 0 10
  | RIGHT_DOWN => mkPosition 7 7
  end.

Definition box (p : Position) (w h : number) : Rect :=
  mkRect (pos_x p - w / 2) (pos_y p - h / 2) (pos_x p + w / 2) (pos_y p + h / 2).

Definition skierBounds (s : SkierFields) : Rect := box (position s) 20 30.

Definition obstacleBounds (o : Obstacle.Obstacle) : Rect :=
  box (mkPosition (Obstacle.x o) (Obstacle.y o)) 40 40.

(** The arrow keys steer and are consumed; nothing else is. *)
Definition handleInput (key : string) (obstacles : list Obstacle.Obstacle)
  (s : SkierFields) : SkierFields * bool :=
  if String.eqb key "ArrowLeft" then
    (mkSkier (position s) STATE_SKIING LEFT_DOWN (jumpFrame s) (flipFrame s), true)
  else if String.eqb key "ArrowRight" then
    (mkSkier (position s) STATE_SKIING RIGHT_DOWN (jumpFrame s) (flipFrame s), true)
  else (s, false).

(** One obstacle at most per call, where the first draw says. *)
Definition placeNew (rnd : Random) (newWindow previousWindow : Rect)
  (obstacles : list Obstacle.Obstacle) : list Obstacle.Obstacle :=
  match rnd with
  | u :: v :: _ =>
      match Obstacle.constructor (left newWindow + u * 800) (bottom newWindow) v with
      | Some o => o :: obstacles
      | None => obstacles
      end
  | _ => obstacles
  end.

Definition placeInitial (rnd : Random) (obstacles : list Obstacle.Obstacle)
  : list Obstacle.Obstacle := obstacles.

(** A rhino that is only a position and walks straight down. *)
Definition rhinoBounds (r : Position) : Rect := box r 30 40.

Definition rhinoStep (currentTime : Z) (s : SkierFields) (r : Position)
  : Position := translate r (mkPosition 0 11).

Definition entities : Entities :=
  spec_entities velocity skierBounds obstacleBounds 5 3 handleInput
    placeInitial placeNew Position mkPosition rhinoBounds rhinoStep.

Definition game0 : Game (E := entities) :=
  fst (constructor (K := constants) (E := entities) 1000 []).

(** The same game, paused. *)
Definition game0_paused : Game (E := entities) := set_paused game0 true.

(** The same game with the skier crashed. *)
Definition game0_crashed : Game (E := entities) :=
  set_skier game0 (with_state (skier game0) STATE_CRASHED).

End Sample.

(** * Properties *)

(** ** Comparisons *)

Lemma Qlt_bool_true (a b : number) : Qlt_bool a b = true <-> a < b.
Proof.
  unfold Qlt_bool. rewrite negb_true_iff. split.
  - intros H. apply Qnot_le_lt. intros Hle.
    apply Qle_bool_iff in Hle. congruence.
  - intros H. destruct (Qle_bool b a) eqn:Hb; [|reflexivity].
    apply Qle_bool_iff in Hb. exfalso. exact (Qlt_not_le _ _ H Hb).
Qed.

Lemma Qlt_bool_false (a b : number) : Qlt_bool a b = false <-> b <= a.
Proof.
  unfold Qlt_bool. rewrite negb_false_iff. apply Qle_bool_iff.
Qed.

(** ** The weighted draw *)

Section ForLoop.
Import Obstacle.

(** What the loop returns: the first index at which what is left of the
    draw, once the weights before it are taken away, is below the weight. *)
Lemma for_loop_Some (ws : list number) :
  forall (i : nat) (r : number) (k : nat),
    for_loop ws i r = Some k ->
    exists j : nat,
      k = (i + j)%nat /\ (j < List.length ws)%nat /\
      r - before ws j < nth j ws 0 /\
      forall j' : nat, (j' < j)%nat -> nth j' ws 0 <= r - before ws j'.
Proof.
  induction ws as [|w rest IH]; intros i r k Hk; simpl in Hk.
  - discriminate.
  - destruct (Qlt_bool r w) eqn:Hlt.
    + injection Hk as <-. exists 0%nat.
      apply Qlt_bool_true in Hlt.
      repeat split.
      * lia.
      * simpl. lia.
      * unfold before. simpl. lra.
      * intros j' Hj'. lia.
    + apply Qlt_bool_false in Hlt.
      destruct (IH _ _ _ Hk) as (j & -> & Hlen & Hhit & Hmiss).
      exists (S j). repeat split.
      * lia.
      * simpl. lia.
      * unfold before in *. simpl. lra.
      * intros [|j'] Hj'.
        -- unfold before. simpl. lra.
        -- assert (Hj : (j' < j)%nat) by lia.
           specialize (Hmiss j' Hj). unfold before in *. simpl. lra.
Qed.

(** When the loop runs to the end, no index was hit. *)
Lemma for_loop_None (ws : list number) :
  forall (i : nat) (r : number),
    for_loop ws i r = None ->
    forall j : nat, (j < List.length ws)%nat -> nth j ws 0 <= r - before ws j.
Proof.
  induction ws as [|w rest IH]; intros i r Hk j Hj; simpl in *.
  - lia.
  - destruct (Qlt_bool r w) eqn:Hlt; [discriminate|].
    apply Qlt_bool_false in Hlt.
    destruct j as [|j].
    + unfold before. simpl. lra.
    + assert (Hj' : (j < List.length rest)%nat) by lia.
      specialize (IH _ _ Hk j Hj'). unfold before in *. simpl. lra.
Qed.

(** One more element in a prefix sum. *)
Lemma before_S (ws : list number) :
  forall j : nat, (j < List.length ws)%nat ->
    before ws (S j) == before ws j + nth j ws 0.
Proof.
  unfold before.
  induction ws as [|w ws IH]; intros j Hlen; simpl in Hlen.
  - lia.
  - destruct j as [|j].
    + simpl. lra.
    + assert (Hj : (j < List.length ws)%nat) by lia.
      specialize (IH j Hj).
      change (firstn (S (S j)) (w :: ws)) with (w :: firstn (S j) ws).
      change (firstn (S j) (w :: ws)) with (w :: firstn j ws).
      change (nth (S j) (w :: ws) 0) with (nth j ws 0).
      cbn [fold_right]. lra.
Qed.

(** The loop of [getRandomObstacleType] on the catalogue. *)
Lemma getRandomObstacleType_unfold (random : number) :
  getRandomObstacleType random =
  match for_loop weights 0 (random * totalWeight) with
  | Some i => i
  | None => (List.length OBSTACLE_TYPES - 1)%nat
  end.
Proof. reflexivity. Qed.

(** A slot that ends at or before the draw does not contain it. *)
Lemma missed_slot (r : number) (j : nat) :
  weight_at j <= r - weight_before j -> ~ in_slot r j.
Proof. unfold in_slot. intros H [_ H']. lra. Qed.

(** Every index the loop can return is an index of the catalogue. *)
Lemma getRandomObstacleType_in_range (random : number) :
  (getRandomObstacleType random < List.length OBSTACLE_TYPES)%nat.
Proof.
  rewrite getRandomObstacleType_unfold.
  destruct (for_loop weights 0 (random * totalWeight)) as [k|] eqn:Hk.
  - destruct (for_loop_Some _ _ _ _ Hk) as (j & -> & Hlen & _).
    exact Hlen.
  - simpl. lia.
Qed.

(** With a draw below the total weight the loop finds a match. *)
Lemma for_loop_finds (r : number) :
  r < totalWeight -> for_loop weights 0 r <> None.
Proof.
  intros HW Hk.
  pose proof (for_loop_None _ _ _ Hk 4%nat) as H4.
  unfold before in H4. simpl in H4.
  assert (Hr : r < 100) by exact HW.
  specialize (H4 ltac:(lia)). lra.
Qed.

End ForLoop.

(** C2: for a draw [r = random * totalWeight] with [0 <= r < totalWeight]
    (the total weight is 100), [getRandomObstacleType] returns the index of
    the first catalogue entry whose interval [weight_before i,
    weight_before i + weight_at i) contains [r]; and whenever the loop finds
    no match, it returns the last index, [OBSTACLE_TYPES.length - 1]. *)
Theorem C2_getRandomObstacleType_first_slot (random : number) :
  let r := random * Obstacle.totalWeight in
  Obstacle.totalWeight = 100 /\
  (0 <= r -> r < Obstacle.totalWeight ->
   let i := Obstacle.getRandomObstacleType random in
   (i < List.length Obstacle.OBSTACLE_TYPES)%nat /\
   Obstacle.in_slot r i /\
   forall j : nat, (j < i)%nat -> ~ Obstacle.in_slot r j) /\
  (Obstacle.for_loop Obstacle.weights 0 r = None ->
   Obstacle.getRandomObstacleType random
   = (List.length Obstacle.OBSTACLE_TYPES - 1)%nat).
Proof.
  intros r. split; [reflexivity|]. split.
  - intros H0 HW i. subst i.
    rewrite getRandomObstacleType_unfold. fold r.
    destruct (Obstacle.for_loop Obstacle.weights 0 r) as [k|] eqn:Hk.
    + destruct (for_loop_Some _ _ _ _ Hk) as (j & -> & Hlen & Hhit & Hmiss).
      simpl Nat.add. repeat split.
      * exact Hlen.
      * destruct j as [|j].
        -- exact H0.
        -- assert (Hj : (j < S j)%nat) by lia.
           specialize (Hmiss j Hj).
           assert (Hj' : (j < List.length Obstacle.weights)%nat) by lia.
           pose proof (before_S _ j Hj') as Hstep.
           unfold Obstacle.weight_before. lra.
      * unfold Obstacle.weight_before, Obstacle.weight_at. lra.
      * intros j' Hj'. apply missed_slot.
        exact (Hmiss j' Hj').
    + exfalso. exact (for_loop_finds r HW Hk).
  - intros Hk. rewrite getRandomObstacleType_unfold. fold r. rewrite Hk.
    reflexivity.
Qed.

(** The statement of C2 at the draws 1/2 (a match, at index 1) and 1 (no
    match: the draw is the whole total weight). *)
Lemma C2_getRandomObstacleType_first_slot_witness :
  Obstacle.in_slot ((1 # 2) * Obstacle.totalWeight) 1
  /\ Obstacle.getRandomObstacleType 1 = 4%nat.
Proof.
  split.
  - destruct (C2_getRandomObstacleType_first_slot (1 # 2)) as (_ & H & _).
    apply H.
    + vm_compute. discriminate.
    + vm_compute. reflexivity.
  - destruct (C2_getRandomObstacleType_first_slot 1) as (_ & _ & H).
    apply H. vm_compute. reflexivity.
Defined.

Example totalWeight_100 : Obstacle.totalWeight = 100.
Proof. reflexivity. Qed.

Example draw_0 : Obstacle.getRandomObstacleType 0 = 0%nat.
Proof. reflexivity. Qed.

Example draw_half : Obstacle.getRandomObstacleType (1 # 2) = 1%nat.
Proof. reflexivity. Qed.

Example draw_0999 : Obstacle.getRandomObstacleType (999 # 1000) = 4%nat.
Proof. reflexivity. Qed.

(** ** Obstacles *)

(** The image name of every catalogue entry is one of the five. *)
Lemma catalog_entries_named (i : nat) (type : Obstacle.iObstacleType) :
  nth_error Obstacle.OBSTACLE_TYPES i = Some type ->
  In (Obstacle.type_imageName type) Obstacle.catalog_image_names.
Proof.
  intros H. apply nth_error_In in H.
  unfold Obstacle.OBSTACLE_TYPES in H. simpl in H.
  unfold Obstacle.catalog_image_names.
  repeat (destruct H as [<- | H]; [simpl; tauto|]).
  contradiction.
Qed.

(** C7: [die()] on an obstacle is a no-op: the obstacle is returned as it
    was, so its position, image name and weight are unchanged, and no effect
    is performed. *)
Theorem C7_die_noop (o : Obstacle.Obstacle) :
  let (o', effects) := Obstacle.die (Effect := Effect) o in
  o' = o /\
  Obstacle.x o' = Obstacle.x o /\
  Obstacle.y o' = Obstacle.y o /\
  Obstacle.imageName o' = Obstacle.imageName o /\
  Obstacle.weight o' = Obstacle.weight o /\
  effects = [].
Proof.
  unfold Obstacle.die. repeat split; reflexivity.
Qed.

(** C8: for every draw [r = random * totalWeight] with
    [0 <= r < totalWeight], the index [getRandomObstacleType] returns is
    between 0 and [OBSTACLE_TYPES.length - 1], the constructor's lookup
    [OBSTACLE_TYPES[typeIdx]] succeeds, and the image name of the obstacle
    built is one of TREE, TREE_CLUSTER, ROCK1, ROCK2, JUMP_RAMP. *)
Theorem C8_constructor_in_bounds (random : number) (x y : number) :
  let r := random * Obstacle.totalWeight in
  0 <= r -> r < Obstacle.totalWeight ->
  let typeIdx := Obstacle.getRandomObstacleType random in
  (0 <= typeIdx <= List.length Obstacle.OBSTACLE_TYPES - 1)%nat /\
  (exists type : Obstacle.iObstacleType,
      nth_error Obstacle.OBSTACLE_TYPES typeIdx = Some type) /\
  exists o : Obstacle.Obstacle,
    Obstacle.constructor x y random = Some o /\
    In (Obstacle.imageName o) Obstacle.catalog_image_names.
Proof.
  intros r _ _ typeIdx.
  pose proof (getRandomObstacleType_in_range random) as Hlt.
  fold typeIdx in Hlt.
  destruct (nth_error Obstacle.OBSTACLE_TYPES typeIdx) as [type|] eqn:Hnth.
  - split; [lia|]. split; [exists type; reflexivity|].
    unfold Obstacle.constructor. fold typeIdx. rewrite Hnth.
    eexists. split; [reflexivity|].
    simpl. exact (catalog_entries_named _ _ Hnth).
  - apply nth_error_None in Hnth. lia.
Qed.

(** The statement of C8 at the draw 0.95, which selects the jump ramp. *)
Lemma C8_constructor_in_bounds_witness :
  exists o : Obstacle.Obstacle,
    Obstacle.constructor 3 4 (95 # 100) = Some o /\
    In (Obstacle.imageName o) Obstacle.catalog_image_names.
Proof.
  apply (C8_constructor_in_bounds (95 # 100) 3 4).
  - vm_compute. discriminate.
  - vm_compute. reflexivity.
Defined.

Example construct_ramp :
  Obstacle.constructor 3 4 (95 # 100) = Some (Obstacle.mkObstacle 3 4 JUMP_RAMP 0).
Proof. reflexivity. Qed.

(** ** The orchestrator *)

Section GameFacts.
Context {K : Constants} {E : Entities}.

(** What the [switch] of [handleKeyDown] computes: the pause keys toggle the
    pause, and every key, the pause keys included, ends in [default], which
    clears [handled]. *)
Lemma handleKeyDown_switch (key : string) (this : Game) (handled : bool) :
  switch key handleKeyDown_clauses (this, handled) =
  ((if is_pause_key key
    then (if paused this then resume this else pause this)
    else this),
   false).
Proof.
  unfold switch, handleKeyDown_clauses, is_pause_key. simpl.
  destruct (String.eqb key KEYS_P); simpl.
  - reflexivity.
  - destruct (String.eqb key KEYS_ESC); reflexivity.
Qed.

Lemma handleKeyDown_unfold (key : string) (this : Game) :
  handleKeyDown key this =
  let this1 :=
    set_skier this
      (fst (Skier_handleInput key (obstacleManager this) (skier this))) in
  ((if is_pause_key key
    then (if paused this1 then resume this1 else pause this1)
    else this1),
   []).
Proof.
  unfold handleKeyDown.
  destruct (Skier_handleInput key (obstacleManager this) (skier this))
    as [skier' handled].
  rewrite handleKeyDown_switch. reflexivity.
Qed.

(** [pause] and [resume] touch [paused] only. *)
Lemma pause_paused (this : Game) :
  paused (pause this) =
  match Skier_state (skier this) with
  | STATE_SKIING => true
  | _ => paused this
  end.
Proof. unfold pause. destruct (Skier_state (skier this)); reflexivity. Qed.

Lemma pause_skier (this : Game) : skier (pause this) = skier this.
Proof. unfold pause. destruct (Skier_state (skier this)); reflexivity. Qed.

Lemma pause_score (this : Game) : score (pause this) = score this.
Proof. unfold pause. destruct (Skier_state (skier this)); reflexivity. Qed.

(** The score after [updateGameScore]. *)
Lemma updateGameScore_score (this : Game) :
  score (updateGameScore this)
  = (score this + points (Skier_state (skier this)))%Z.
Proof.
  unfold updateGameScore.
  destruct (Skier_state (skier this)); simpl; lia.
Qed.

(** The score after [updateGameWindow]: nothing after [updateGameScore]
    assigns it. *)
Lemma updateGameWindow_score (now : Z) (rnd : Random) (this : Game) :
  score (updateGameWindow now rnd this)
  = (score this
     + if paused this then 0 else points (Skier_state (skier this)))%Z.
Proof.
  unfold updateGameWindow.
  destruct (paused this); [lia|].
  match goal with
  | |- context [Rhino_update ?t ?s ?r] => destruct (Rhino_update t s r)
  end.
  cbn [score set_skier set_rhino set_obstacleManager calculateGameWindow
         set_gameWindow].
  rewrite updateGameScore_score. reflexivity.
Qed.

(** [updateGameScore] as one assignment. *)
Lemma updateGameScore_eq (this : Game) :
  updateGameScore this
  = set_score this (score this + points (Skier_state (skier this)))%Z.
Proof.
  unfold updateGameScore, set_score. destruct this as [c w t im o p sc sk r].
  cbn [canvas gameWindow gameTime imageManager obstacleManager paused score
       skier rhino].
  destruct (Skier_state sk); cbn [points]; rewrite ?Z.add_0_r; reflexivity.
Qed.

(** The game after an unpaused [updateGameWindow], field by field. *)
Lemma updateGameWindow_unpaused (now : Z) (rnd : Random) (this : Game) :
  paused this = false ->
  updateGameWindow now rnd this =
  let window := gameWindow (calculateGameWindow this) in
  let obstacles :=
    placeNewObstacle rnd window (gameWindow this) (obstacleManager this) in
  let moved := Skier_update now obstacles (skier this) in
  let chased := Rhino_update now moved (rhino this) in
  mkGame (canvas this) window now (imageManager this) obstacles false
    (score this + points (Skier_state (skier this)))%Z
    (snd chased) (fst chased).
Proof.
  intros Hp. unfold updateGameWindow. rewrite Hp, updateGameScore_eq.
  cbn [canvas gameWindow gameTime imageManager obstacleManager paused score
       skier rhino
       set_gameTime set_score set_gameWindow set_obstacleManager set_skier
       set_rhino calculateGameWindow].
  match goal with
  | |- context [Rhino_update ?t ?s ?r] => destruct (Rhino_update t s r)
  end.
  unfold set_skier, set_rhino, set_obstacleManager, calculateGameWindow,
    set_gameWindow, set_score, set_gameTime.
  cbn [canvas gameWindow gameTime imageManager obstacleManager paused score
       skier rhino
       fst snd].
  rewrite Hp. reflexivity.
Qed.

(** The score after [handleKeyDown]. *)
Lemma handleKeyDown_score (key : string) (this : Game) :
  score (fst (handleKeyDown key this)) = score this.
Proof.
  rewrite handleKeyDown_unfold. simpl.
  destruct (is_pause_key key); [|reflexivity].
  destruct (paused _); [reflexivity|].
  rewrite pause_score. reflexivity.
Qed.

(** The overlays are drawn on the context only. *)
Lemma drawMenuMessage_no_entity (message : string) (menuOpacity : number)
  (this : Game) :
  forallb (fun e => negb (is_entity_draw e))
    (drawMenuMessage message menuOpacity this) = true.
Proof. reflexivity. Qed.

Lemma drawMenuMessages_no_entity (this : Game) :
  forallb (fun e => negb (is_entity_draw e)) (drawMenuMessages this) = true.
Proof.
  unfold drawMenuMessages. rewrite !forallb_app.
  destruct (paused this), (Skier_state (skier this)); reflexivity.
Qed.

(** C1 (what the code does): [handleKeyDown] never calls [preventDefault],
    whatever [handleInput] returned: the [default] clause of the [switch] is
    reached for every key and clears [handled]. *)
Theorem C1_handleKeyDown_never_preventDefault (key : string) (this : Game) :
  snd (handleKeyDown key this) = [] /\
  ~ In preventDefault (snd (handleKeyDown key this)).
Proof.
  rewrite handleKeyDown_unfold. simpl. split; [reflexivity|tauto].
Qed.

(** C3: while the game is paused, [updateGameWindow] returns the game as it
    was (score, time, window, skier, rhino and obstacles included), and the
    frame still draws: [run] performs the whole of [drawGameWindow], which
    contains the menu message of the pause. *)
Theorem C3_paused_update_noop_draw_runs
  (now : Z) (rnd : Random) (this : Game) :
  paused this = true ->
  updateGameWindow now rnd this = this /\
  fst (run now rnd this) = this /\
  snd (run now rnd this)
  = [clearCanvas] ++ drawGameWindow this ++ [requestAnimationFrame] /\
  (exists before after : list Effect,
      drawGameWindow this
      = before ++ drawMenuMessage (paused_message this) (1 # 2) this ++ after) /\
  In (ctx_fillText (paused_message this)
        (Canvas_width (canvas this) / 2) (Canvas_height (canvas this) / 2))
     (snd (run now rnd this)).
Proof.
  intros Hp.
  assert (Hu : updateGameWindow now rnd this = this).
  { unfold updateGameWindow. rewrite Hp. reflexivity. }
  assert (Hd : exists before after : list Effect,
      drawGameWindow this
      = before ++ drawMenuMessage (paused_message this) (1 # 2) this ++ after).
  { unfold drawGameWindow, drawMenuMessages. rewrite Hp.
    eexists (_ :: _ :: _ :: _ :: drawScore this), _.
    cbn [app]. reflexivity. }
  unfold run. rewrite Hu. cbn [fst snd].
  repeat split; try assumption.
  destruct Hd as (before & after & ->).
  apply in_app_iff. right.
  apply in_app_iff. left.
  apply in_app_iff. right.
  apply in_app_iff. left.
  unfold drawMenuMessage. simpl. tauto.
Qed.

(** C5: when the skier is CRASHED or DEAD, [updateGameScore] leaves the
    score (indeed the whole game) unchanged, and so does the tick. *)
Theorem C5_no_points_when_crashed_or_dead
  (now : Z) (rnd : Random) (this : Game) :
  Skier_state (skier this) = STATE_CRASHED
  \/ Skier_state (skier this) = STATE_DEAD ->
  updateGameScore this = this /\
  score (updateGameScore this) = score this /\
  score (updateGameWindow now rnd this) = score this /\
  score (fst (run now rnd this)) = score this.
Proof.
  intros Hs.
  assert (Hp : points (Skier_state (skier this)) = 0%Z)
    by (destruct Hs as [-> | ->]; reflexivity).
  repeat split.
  - unfold updateGameScore. destruct Hs as [-> | ->]; reflexivity.
  - rewrite updateGameScore_score, Hp. lia.
  - rewrite updateGameWindow_score, Hp. destruct (paused this); lia.
  - unfold run. cbn [fst].
    rewrite updateGameWindow_score, Hp. destruct (paused this); lia.
Qed.

(** C6: [drawGameWindow] sets the draw offset and then draws the skier, the
    rhino, the obstacles and the overlays (score, then menu messages), in
    this order; no entity is drawn among the overlays.  [run] performs
    exactly this between clearing the canvas and requesting the next
    frame. *)
Theorem C6_draw_order (now : Z) (rnd : Random) (this : Game) :
  let overlays := drawScore this ++ drawMenuMessages this in
  drawGameWindow this
  = setDrawOffset (left (gameWindow this)) (top (gameWindow this))
    :: skier_draw :: rhino_draw :: drawObstacles :: overlays /\
  forallb (fun e => negb (is_entity_draw e)) overlays = true /\
  filter is_entity_draw (drawGameWindow this)
  = [skier_draw; rhino_draw; drawObstacles] /\
  filter is_entity_draw (snd (run now rnd this))
  = [skier_draw; rhino_draw; drawObstacles].
Proof.
  intros overlays.
  assert (Ho : forallb (fun e => negb (is_entity_draw e)) overlays = true).
  { unfold overlays. rewrite forallb_app, drawMenuMessages_no_entity.
    reflexivity. }
  assert (Hf : forall l : list Effect,
             forallb (fun e => negb (is_entity_draw e)) l = true ->
             filter is_entity_draw l = []).
  { induction l as [|e l IH]; simpl; [reflexivity|].
    intros H. apply andb_true_iff in H. destruct H as [He Hl].
    apply negb_true_iff in He. rewrite He. auto. }
  assert (Hd : forall g : Game,
             filter is_entity_draw (drawGameWindow g)
             = [skier_draw; rhino_draw; drawObstacles]).
  { intros g. unfold drawGameWindow. cbn [app filter is_entity_draw].
    rewrite Hf; [reflexivity|].
    rewrite forallb_app, drawMenuMessages_no_entity. reflexivity. }
  repeat split.
  - exact Ho.
  - apply Hd.
  - unfold run. cbn [snd app filter is_entity_draw].
    rewrite filter_app, Hd. reflexivity.
Qed.

(** C9: on a pause key (P or Escape), an unpaused game becomes paused
    exactly when the skier's state, as [pause] reads it after the skier has
    been handed the key, is SKIING, and stays unpaused otherwise; a paused
    game is resumed whatever the skier's state. *)
Theorem C9_pause_key (key : string) (this : Game) :
  key = KEYS_P \/ key = KEYS_ESC ->
  let this' := fst (handleKeyDown key this) in
  skier this'
  = fst (Skier_handleInput key (obstacleManager this) (skier this)) /\
  (paused this = false ->
   (paused this' = true <-> Skier_state (skier this') = STATE_SKIING)) /\
  (paused this = false ->
   Skier_state (skier this') <> STATE_SKIING -> paused this' = false) /\
  (paused this = true -> paused this' = false).
Proof.
  intros Hkey this'.
  assert (His : is_pause_key key = true).
  { unfold is_pause_key.
    destruct Hkey as [-> | ->]; rewrite String.eqb_refl;
      [reflexivity | apply orb_true_r]. }
  subst this'. rewrite handleKeyDown_unfold. cbn zeta. rewrite His.
  cbn [fst].
  set (s' := fst (Skier_handleInput key (obstacleManager this) (skier this))).
  assert (Hp1 : paused (set_skier this s') = paused this) by reflexivity.
  assert (Hs1 : skier (set_skier this s') = s') by reflexivity.
  destruct (paused (set_skier this s')) eqn:Hp.
  - rewrite <- Hp1. repeat split; try discriminate.
  - rewrite pause_skier, pause_paused, Hs1, Hp.
    repeat split; intros; try discriminate;
      destruct (Skier_state s'); congruence.
Qed.

(** C10: the score of a new game is 0; [updateGameScore] adds 1, 10, 100 or
    0 according to the skier's state; a call of any method changes the score
    by what the calls of [updateGameScore] it makes add (one call in an
    unpaused [updateGameWindow] or [run], none elsewhere); hence the score
    never decreases along a sequence of calls. *)
Theorem C10_score_monotone :
  (forall (now : Z) (rnd : Random), score (fst (constructor now rnd)) = 0%Z) /\
  (forall this : Game,
      score (updateGameScore this)
      = (score this
         + match Skier_state (skier this) with
           | STATE_SKIING => 1
           | STATE_JUMPING => 10
           | STATE_FLIPPING => 100
           | STATE_CRASHED | STATE_DEAD => 0
           end)%Z) /\
  (forall (c : Call) (this : Game),
      score (fst (perform c this))
      = (score this
         + match c with
           | call_updateGameScore => points (Skier_state (skier this))
           | call_updateGameWindow _ _ | call_run _ _ =>
               if paused this then 0 else points (Skier_state (skier this))
           | _ => 0
           end)%Z) /\
  (forall (cs : list Call) (this : Game),
      (score this <= score (fst (perform_all cs this)))%Z) /\
  (forall (now : Z) (rnd : Random) (cs : list Call),
      (0 <= score (fst (perform_all cs (fst (constructor now rnd)))))%Z).
Proof.
  assert (Hstep : forall (c : Call) (this : Game),
      score (fst (perform c this))
      = (score this
         + match c with
           | call_updateGameScore => points (Skier_state (skier this))
           | call_updateGameWindow _ _ | call_run _ _ =>
               if paused this then 0 else points (Skier_state (skier this))
           | _ => 0
           end)%Z).
  { intros c this. destruct c; cbn [perform fst run];
      rewrite ?updateGameWindow_score, ?updateGameScore_score,
        ?handleKeyDown_score, ?pause_score;
      try reflexivity; cbn; lia. }
  assert (Hpoints : forall s : STATES, (0 <= points s)%Z)
    by (intros []; simpl; lia).
  assert (Hmono : forall (cs : list Call) (this : Game),
      (score this <= score (fst (perform_all cs this)))%Z).
  { induction cs as [|c cs IH]; intros this; cbn [perform_all].
    - cbn. lia.
    - destruct (perform c this) as [this1 effects1] eqn:Hc.
      specialize (IH this1).
      destruct (perform_all cs this1) as [this2 effects2].
      cbn [fst] in *.
      pose proof (Hstep c this) as Hs. rewrite Hc in Hs. cbn [fst] in Hs.
      pose proof (Hpoints (Skier_state (skier this))) as Hnn.
      destruct c, (paused this); lia. }
  repeat split.
  - intros this. apply updateGameScore_score.
  - exact Hstep.
  - exact Hmono.
  - intros now rnd cs.
    specialize (Hmono cs (fst (constructor now rnd))).
    cbn [constructor fst set_score score] in Hmono. exact Hmono.
Qed.

End GameFacts.

(** ** A tick of the skier of the spec *)

Section SkiingTick.
Context {K : Constants}.
Variable velocity : DIRECTION -> Position.
Variable skierBounds : SkierFields -> Rect.
Variable obstacleBounds : Obstacle.Obstacle -> Rect.
Variable JUMP_FINAL_INDEX : nat.
Variable FLIP_FRAME_BUDGET : nat.
Variable handleInput :
  string -> list Obstacle.Obstacle -> SkierFields -> SkierFields * bool.
Variable placeInitial : Random -> list Obstacle.Obstacle -> list Obstacle.Obstacle.
Variable placeNew :
  Random -> Rect -> Rect -> list Obstacle.Obstacle -> list Obstacle.Obstacle.
Variable RhinoFields : Type.
Variable rhinoNew : number -> number -> RhinoFields.
Variable rhinoBounds : RhinoFields -> Rect.
Variable rhinoStep : Z -> SkierFields -> RhinoFields -> RhinoFields.

Local Abbreviation entities :=
  (spec_entities velocity skierBounds obstacleBounds JUMP_FINAL_INDEX
     FLIP_FRAME_BUDGET handleInput placeInitial placeNew RhinoFields rhinoNew
     rhinoBounds rhinoStep).

(** Only [move] changes the position. *)
Lemma move_position (s : SkierFields) :
  position (move velocity s) =
  match state s with
  | STATE_SKIING | STATE_JUMPING | STATE_FLIPPING =>
      translate (position s) (velocity (direction s))
  | STATE_CRASHED | STATE_DEAD => position s
  end.
Proof. unfold move. destruct (state s); reflexivity. Qed.

Lemma sequence_position (s : SkierFields) :
  position (sequence JUMP_FINAL_INDEX FLIP_FRAME_BUDGET s) = position s.
Proof.
  unfold sequence.
  destruct (state s); try reflexivity.
  - destruct (JUMP_FINAL_INDEX <=? jumpFrame s)%nat; reflexivity.
  - destruct (FLIP_FRAME_BUDGET <=? flipFrame s)%nat; reflexivity.
Qed.

Lemma checkIfHitObstacle_position (obstacles : list Obstacle.Obstacle)
  (s : SkierFields) :
  position (checkIfHitObstacle skierBounds obstacleBounds obstacles s)
  = position s.
Proof.
  unfold checkIfHitObstacle.
  destruct (state s); try reflexivity.
  destruct (existsb _ obstacles); reflexivity.
Qed.

Lemma Skier_update_spec_position (currentTime : Z)
  (obstacles : list Obstacle.Obstacle) (s : SkierFields) :
  position
    (Skier_update_spec velocity skierBounds obstacleBounds JUMP_FINAL_INDEX
       FLIP_FRAME_BUDGET currentTime obstacles s)
  = position (move velocity s).
Proof.
  unfold Skier_update_spec.
  rewrite checkIfHitObstacle_position, sequence_position. reflexivity.
Qed.

Lemma Rhino_update_spec_position (currentTime : Z) (s : SkierFields)
  (r : RhinoFields) :
  position
    (snd (Rhino_update_spec skierBounds RhinoFields rhinoBounds rhinoStep
            currentTime s r))
  = position s.
Proof.
  unfold Rhino_update_spec.
  destruct (state s); try reflexivity.
  destruct (intersects _ _); reflexivity.
Qed.

(** C4: in an unpaused tick in which the skier is SKIING and faces DOWN, the
    score grows by exactly 1 and the skier's position advances by exactly
    the DOWN velocity vector.  The tick is [run] over the entities of the
    spec; this holds from every position, (0,0) included, and whatever
    obstacles there are. *)
Theorem C4_skiing_tick (now : Z) (rnd : Random) (this : Game (E := entities)) :
  paused this = false ->
  state (skier this) = STATE_SKIING ->
  direction (skier this) = DOWN ->
  let this' := fst (run now rnd this) in
  score this' = (score this + 1)%Z /\
  Skier_getPosition (skier this')
  = translate (Skier_getPosition (skier this)) (velocity DOWN).
Proof.
  intros Hp Hs Hd this'. subst this'. unfold run. cbn [fst].
  rewrite (updateGameWindow_unpaused now rnd this Hp).
  cbn zeta. cbn [score skier]. split.
  - change (Skier_state (skier this)) with (state (skier this)).
    rewrite Hs. reflexivity.
  - change (@Skier_getPosition entities) with position.
    change (@Rhino_update entities)
      with (Rhino_update_spec skierBounds RhinoFields rhinoBounds rhinoStep).
    change (@Skier_update entities)
      with (Skier_update_spec velocity skierBounds obstacleBounds
              JUMP_FINAL_INDEX FLIP_FRAME_BUDGET).
    rewrite Rhino_update_spec_position, Skier_update_spec_position,
      move_position, Hs, Hd.
    reflexivity.
Qed.

End SkiingTick.

(** ** The statements on the example game *)

Section Examples.
Local Existing Instance Sample.constants.
Local Existing Instance Sample.entities.

(** The skier consumes the left arrow, and [handleKeyDown] still does not
    call [preventDefault]. *)
Example handleKeyDown_consumed_key :
  snd (Skier_handleInput "ArrowLeft"
         (obstacleManager Sample.game0) (skier Sample.game0)) = true
  /\ snd (handleKeyDown "ArrowLeft" Sample.game0) = [].
Proof. split; reflexivity. Qed.

(** The statement of C3 on the paused example game. *)
Lemma C3_paused_update_noop_draw_runs_witness :
  updateGameWindow 2000 [] Sample.game0_paused = Sample.game0_paused
  /\ In (ctx_fillText "Game paused! Your score is 0!" (800 / 2) (500 / 2))
        (snd (run 2000 [] Sample.game0_paused)).
Proof.
  pose proof (C3_paused_update_noop_draw_runs 2000 [] Sample.game0_paused
                eq_refl) as (Hu & _ & _ & _ & Hin).
  split; [exact Hu | exact Hin].
Defined.

(** The statement of C4 on the example game: the skier starts at (0,0),
    SKIING, facing DOWN. *)
Lemma C4_skiing_tick_witness :
  score (fst (run 2000 [] Sample.game0)) = 1%Z
  /\ position (skier (fst (run 2000 [] Sample.game0)))
     = translate (mkPosition 0 0) (Sample.velocity DOWN).
Proof.
  exact (C4_skiing_tick (K := Sample.constants)
           Sample.velocity Sample.skierBounds Sample.obstacleBounds 5 3
           Sample.handleInput Sample.placeInitial Sample.placeNew
           Position mkPosition Sample.rhinoBounds Sample.rhinoStep
           2000 [] Sample.game0 eq_refl eq_refl eq_refl).
Defined.

(** The statement of C5 on the example game with a crashed skier. *)
Lemma C5_no_points_when_crashed_or_dead_witness :
  score (fst (run 2000 [] Sample.game0_crashed)) = 0%Z.
Proof.
  pose proof (C5_no_points_when_crashed_or_dead 2000 [] Sample.game0_crashed
                (or_introl eq_refl)) as (_ & _ & _ & H).
  exact H.
Defined.

(** The statement of C9 on the example game, for the key P. *)
Lemma C9_pause_key_witness :
  paused (fst (handleKeyDown "p" Sample.game0)) = true
  /\ paused (fst (handleKeyDown "p" Sample.game0_paused)) = false.
Proof.
  split.
  - pose proof (C9_pause_key "p" Sample.game0 (or_introl eq_refl))
      as (_ & H & _).
    apply (H eq_refl). reflexivity.
  - pose proof (C9_pause_key "p" Sample.game0_paused (or_introl eq_refl))
      as (_ & _ & _ & H).
    exact (H eq_refl).
Defined.

(** One frame of the example game. *)
Example first_frame_score :
  In (ctx_fillText "Score: 1" 10 30) (snd (run 2000 [] Sample.game0)).
Proof. vm_compute. tauto. Qed.

Example first_frame_draws :
  filter is_entity_draw (snd (run 2000 [] Sample.game0))
  = [skier_draw; rhino_draw; drawObstacles].
Proof. reflexivity. Qed.

(** Escape pauses a skiing game and does not pause a crashed one. *)
Example escape_pauses_skiing :
  paused (fst (handleKeyDown "Escape" Sample.game0)) = true.
Proof. reflexivity. Qed.

Example escape_ignored_when_crashed :
  paused (fst (handleKeyDown "Escape" Sample.game0_crashed)) = false.
Proof. reflexivity. Qed.

(** Three frames and a pause in between. *)
Example score_after_calls :
  score (fst (perform_all
                [call_run 2000 []; call_run 2016 []; call_handleKeyDown "p";
                 call_run 2032 []; call_handleKeyDown "p"; call_run 2048 []]
                Sample.game0)) = 3%Z.
Proof. reflexivity. Qed.

End Examples.

(** * Further properties of Obstacle.ts *)

(** Case analysis on every comparison of the goal. *)
Ltac compare_all :=
  repeat match goal with
    | |- context [Qlt_bool ?a ?b] =>
        let H := fresh "Hcmp" in
        destruct (Qlt_bool a b) eqn:H;
        [apply Qlt_bool_true in H | apply Qlt_bool_false in H]
    end.

Section DrawFacts.
Import Obstacle.

Lemma getRandomObstacleType_index_of_draw (random : number) :
  getRandomObstacleType random = index_of_draw random.
Proof.
  rewrite getRandomObstacleType_unfold.
  unfold index_of_draw.
  change totalWeight with (100 : Q).
  change weights with [30; 30; 20; 10; 10].
  cbn [for_loop List.length OBSTACLE_TYPES Nat.sub].
  compare_all; try reflexivity; exfalso; lra.
Qed.



End DrawFacts.


(** X2: the index drawn grows with the draw: a larger value of
    [Math.random()] never selects an earlier catalogue entry. *)
Theorem X2_getRandomObstacleType_monotone (random1 random2 : number) :
  random1 <= random2 ->
  (Obstacle.getRandomObstacleType random1
   <= Obstacle.getRandomObstacleType random2)%nat.
Proof.
  intros Hle.
  rewrite !getRandomObstacleType_index_of_draw.
  unfold Obstacle.index_of_draw.
  compare_all; try lia; exfalso; lra.
Qed.

Lemma X2_getRandomObstacleType_monotone_witness :
  (Obstacle.getRandomObstacleType (1 # 4)
   <= Obstacle.getRandomObstacleType (7 # 10))%nat.
Proof.
  apply X2_getRandomObstacleType_monotone.
  vm_compute. discriminate.
Defined.

(** X3: the loop of [getRandomObstacleType] runs to its end, so that the
    fallback [return OBSTACLE_TYPES.length - 1] is taken, exactly when the
    draw is 1 or more; for a draw below 1, as [Math.random()] gives, the loop
    itself returns. *)
Theorem X3_fallback_only_from_one (random : number) :
  Obstacle.for_loop Obstacle.weights 0 (random * Obstacle.totalWeight) = None
  <-> 1 <= random.
Proof.
  change Obstacle.totalWeight with (100 : Q).
  change Obstacle.weights with [30; 30; 20; 10; 10].
  cbn [Obstacle.for_loop].
  compare_all; split; intros H; try discriminate; try reflexivity;
    try lra; exfalso; lra.
Qed.




Example zero_weight_skipped : Obstacle.for_loop [5; 0; 7] 0 5 = Some 2%nat.
Proof. reflexivity. Qed.

(** * Further properties of Game.ts *)

Section MoreGameFacts.
Context {K : Constants} {E : Entities}.

(** Assigning a field the value it has changes nothing. *)
Lemma set_skier_same (this : Game) : set_skier this (skier this) = this.
Proof. destruct this; reflexivity. Qed.

Lemma set_paused_same (this : Game) (b : bool) :
  paused this = b -> set_paused this b = this.
Proof. destruct this; cbn. intros ->. reflexivity. Qed.

Lemma is_pause_key_true (key : string) :
  key = KEYS_P \/ key = KEYS_ESC -> is_pause_key key = true.
Proof.
  unfold is_pause_key.
  intros [-> | ->]; rewrite String.eqb_refl;
    [reflexivity | apply orb_true_r].
Qed.

Lemma is_pause_key_false (key : string) :
  key <> KEYS_P -> key <> KEYS_ESC -> is_pause_key key = false.
Proof.
  unfold is_pause_key. intros HP HE.
  apply String.eqb_neq in HP, HE. rewrite HP, HE. reflexivity.
Qed.

(** [pause] as one conditional assignment. *)
Lemma pause_eq (this : Game) :
  pause this
  = match Skier_state (skier this) with
    | STATE_SKIING => set_paused this true
    | _ => this
    end.
Proof. reflexivity. Qed.

(** The score after any call. *)
Lemma perform_score (c : Call) (this : Game) :
  score (fst (perform c this))
  = (score this
     + match c with
       | call_updateGameScore => points (Skier_state (skier this))
       | call_updateGameWindow _ _ | call_run _ _ =>
           if paused this then 0 else points (Skier_state (skier this))
       | _ => 0
       end)%Z.
Proof.
  destruct c; cbn [perform fst run];
    rewrite ?updateGameWindow_score, ?updateGameScore_score,
      ?handleKeyDown_score, ?pause_score;
    try reflexivity; cbn; lia.
Qed.

Lemma points_range (s : STATES) : (0 <= points s <= 100)%Z.
Proof. destruct s; simpl; lia. Qed.

(** X6: whatever the key and whether the game is paused or not,
    [handleKeyDown] hands the key to the skier (a pause does not hold input
    back) and leaves the score, the clock, the window, the obstacles, the
    rhino, the canvas and the image manager as they are. *)
Theorem X6_handleKeyDown_frame (key : string) (this : Game) :
  let this' := fst (handleKeyDown key this) in
  skier this'
  = fst (Skier_handleInput key (obstacleManager this) (skier this)) /\
  score this' = score this /\
  gameTime this' = gameTime this /\
  gameWindow this' = gameWindow this /\
  obstacleManager this' = obstacleManager this /\
  rhino this' = rhino this /\
  canvas this' = canvas this /\
  imageManager this' = imageManager this.
Proof.
  cbn zeta. rewrite handleKeyDown_unfold. cbn zeta. cbn [fst].
  set (this1 := set_skier this _).
  destruct (is_pause_key key); [|repeat split].
  destruct (paused this1); [repeat split|].
  rewrite pause_eq.
  destruct (Skier_state (skier this1)); repeat split.
Qed.

(** X7: a key that is neither P nor Escape never pauses or resumes: the
    game after [handleKeyDown] is the game before with the skier that
    [handleInput] returned. *)
Theorem X7_other_keys_keep_pause (key : string) (this : Game) :
  key <> KEYS_P -> key <> KEYS_ESC ->
  fst (handleKeyDown key this)
  = set_skier this
      (fst (Skier_handleInput key (obstacleManager this) (skier this)))
  /\ paused (fst (handleKeyDown key this)) = paused this.
Proof.
  intros HP HE.
  rewrite handleKeyDown_unfold. cbn zeta.
  rewrite (is_pause_key_false key HP HE). split; reflexivity.
Qed.

(** [resume] undoes [pause] on an unpaused game; [pause] twice is [pause]. *)
Lemma resume_pause (this : Game) :
  paused this = false -> resume (pause this) = this.
Proof.
  intros Hp. rewrite pause_eq.
  destruct this as [c w t im o p sc sk r]. cbn in Hp. subst p.
  unfold resume, set_paused. cbn.
  destruct (Skier_state sk); reflexivity.
Qed.

Lemma pause_pause (this : Game) : pause (pause this) = pause this.
Proof.
  rewrite (pause_eq this).
  destruct (Skier_state (skier this)) eqn:Hs;
    rewrite pause_eq; cbn [skier set_paused]; rewrite Hs; reflexivity.
Qed.

(** X8: on an unpaused game, [pause] followed by [resume] gives the game
    back as it was; pausing twice is pausing once, and a pause after a
    resume is a pause. *)
Theorem X8_pause_resume (this : Game) :
  paused this = false ->
  resume (pause this) = this /\
  pause (pause this) = pause this /\
  pause (resume this) = pause this.
Proof.
  intros Hp. repeat split.
  - exact (resume_pause this Hp).
  - apply pause_pause.
  - unfold resume. rewrite (set_paused_same this false Hp). reflexivity.
Qed.

(** X9: when the skier leaves a pause key alone, pressing that key twice
    on an unpaused game gives the game back as it was, whatever the state of
    the skier: the game is paused and resumed when the skier is SKIING, and
    untouched otherwise. *)
Theorem X9_pause_key_twice (key : string) (this : Game) :
  key = KEYS_P \/ key = KEYS_ESC ->
  fst (Skier_handleInput key (obstacleManager this) (skier this)) = skier this ->
  paused this = false ->
  fst (handleKeyDown key (fst (handleKeyDown key this))) = this.
Proof.
  intros Hkey Hign Hp.
  pose proof (is_pause_key_true key Hkey) as His.
  assert (H1 : fst (handleKeyDown key this) = pause this).
  { rewrite handleKeyDown_unfold. cbn zeta.
    rewrite His, Hign, set_skier_same, Hp. reflexivity. }
  rewrite H1, handleKeyDown_unfold. cbn zeta. rewrite His. cbn [fst].
  assert (Hom : obstacleManager (pause this) = obstacleManager this).
  { rewrite pause_eq. destruct (Skier_state (skier this)); reflexivity. }
  pose proof (set_skier_same (pause this)) as Heta.
  rewrite pause_skier in Heta.
  rewrite Hom, pause_skier, Hign, Heta.
  rewrite pause_paused, Hp.
  destruct (Skier_state (skier this)) eqn:Hs.
  - exact (resume_pause this Hp).
  - rewrite pause_pause, pause_eq, Hs. reflexivity.
  - rewrite pause_pause, pause_eq, Hs. reflexivity.
  - rewrite pause_pause, pause_eq, Hs. reflexivity.
  - rewrite pause_pause, pause_eq, Hs. reflexivity.
Qed.

(** X10: [drawMenuMessages] draws nothing exactly when the game is not
    paused and the skier is neither CRASHED nor DEAD; it never draws more
    than two messages (twelve context calls) in a frame. *)
Theorem X10_drawMenuMessages_empty (this : Game) :
  (drawMenuMessages this = [] <->
   paused this = false /\
   Skier_state (skier this) <> STATE_CRASHED /\
   Skier_state (skier this) <> STATE_DEAD) /\
  (List.length (drawMenuMessages this) <= 12)%nat.
Proof.
  unfold drawMenuMessages, drawMenuMessage.
  destruct (paused this), (Skier_state (skier this)); cbn;
    (split; [split; [intros H; try discriminate; repeat split; discriminate
                    | intros (H1 & H2 & H3); try discriminate;
                      try reflexivity; congruence]
            | lia]).
Qed.


(** X12: in an unpaused tick the window is computed before the skier moves:
    after [updateGameWindow] it is centred on the position the skier had
    before the tick, and this is the draw offset the frame sets right after
    clearing the canvas. *)
Theorem X12_window_before_move (now : Z) (rnd : Random) (this : Game) :
  paused this = false ->
  let p := Skier_getPosition (skier this) in
  gameWindow (updateGameWindow now rnd this)
  = gameWindow (calculateGameWindow this) /\
  exists rest : list Effect,
    snd (run now rnd this)
    = clearCanvas
      :: setDrawOffset (pos_x p - GAME_WIDTH / 2) (pos_y p - GAME_HEIGHT / 2)
      :: rest.
Proof.
  intros Hp p. unfold run. cbn [snd].
  rewrite (updateGameWindow_unpaused now rnd this Hp). cbn zeta.
  split; [reflexivity|].
  unfold drawGameWindow. cbn [gameWindow app]. eexists. reflexivity.
Qed.

(** X13: the order of an unpaused tick: the obstacle manager places its new
    obstacle for the new and the previous window; the skier is updated
    against the obstacles after that placement; the rhino is updated against
    the skier after its update, and what it returns is the skier and the
    rhino of the game; the clock is the time of the tick, and the game stays
    unpaused on its canvas. *)
Theorem X13_tick_order (now : Z) (rnd : Random) (this : Game) :
  paused this = false ->
  let this' := updateGameWindow now rnd this in
  obstacleManager this'
  = placeNewObstacle rnd (gameWindow this') (gameWindow this)
      (obstacleManager this) /\
  (rhino this', skier this')
  = Rhino_update now
      (Skier_update now (obstacleManager this') (skier this)) (rhino this) /\
  gameTime this' = now /\
  paused this' = false /\
  canvas this' = canvas this /\
  imageManager this' = imageManager this.
Proof.
  intros Hp. cbn zeta.
  rewrite (updateGameWindow_unpaused now rnd this Hp). cbn zeta.
  cbn [obstacleManager gameWindow rhino skier gameTime paused canvas
       imageManager].
  repeat split.
  destruct (Rhino_update _ _ _); reflexivity.
Qed.

(** X14: no call of a method adds more than 100 to the score, so after any
    sequence of calls the score is at most 100 times their number above
    where it was. *)
Theorem X14_score_bounded (cs : list Call) (this : Game) :
  (score (fst (perform_all cs this))
   <= score this + 100 * Z.of_nat (List.length cs))%Z.
Proof.
  revert this. induction cs as [|c cs IH]; intros this; cbn [perform_all].
  - cbn. lia.
  - destruct (perform c this) as [this1 effects1] eqn:Hc.
    specialize (IH this1).
    destruct (perform_all cs this1) as [this2 effects2].
    cbn [fst] in *.
    pose proof (perform_score c this) as Hs. rewrite Hc in Hs. cbn [fst] in Hs.
    pose proof (points_range (Skier_state (skier this))) as Hr.
    cbn [List.length]. rewrite Nat2Z.inj_succ.
    destruct c, (paused this); lia.
Qed.

(** X15: a paused game stays exactly as it is over any number of frames:
    no sequence of calls of [run], [updateGameWindow] and the draw methods
    changes any of its fields. *)
Theorem X15_paused_frames_freeze (cs : list Call) (this : Game) :
  paused this = true ->
  forallb is_frame_call cs = true ->
  fst (perform_all cs this) = this.
Proof.
  intros Hp. induction cs as [|c cs IH]; intros Hcs; cbn [perform_all].
  - reflexivity.
  - cbn [forallb] in Hcs. apply andb_true_iff in Hcs. destruct Hcs as [Hc Hcs].
    assert (H1 : fst (perform c this) = this).
    { destruct c; try discriminate; cbn [perform fst run];
        try reflexivity; unfold updateGameWindow; rewrite Hp; reflexivity. }
    destruct (perform c this) as [this1 effects1]. cbn [fst] in H1. subst this1.
    specialize (IH Hcs).
    destruct (perform_all cs this) as [this2 effects2]. exact IH.
Qed.

(** X16: the score a frame draws is the score after the update of that
    frame: the old score plus the points of the skier's state when the game
    is not paused, the old score when it is. *)
Theorem X16_frame_draws_new_score (now : Z) (rnd : Random) (this : Game) :
  In (ctx_fillText
        ("Score: "
         ++ number_toString
              (score this
               + if paused this then 0 else points (Skier_state (skier this))))
        10 30)
     (snd (run now rnd this)).
Proof.
  unfold run. cbn [snd].
  rewrite <- (updateGameWindow_score now rnd this).
  set (this' := updateGameWindow now rnd this).
  unfold drawGameWindow, drawScore. cbn [app In]. tauto.
Qed.

(** X17: every frame, paused or not and whatever the state of the skier,
    clears the canvas once, before anything else, and requests the next
    frame once, after everything else: the loop never stops by itself, and a
    frame never touches the key event or the listeners. *)
Theorem X17_frame_always_rescheduled (now : Z) (rnd : Random) (this : Game) :
  let effects := snd (run now rnd this) in
  filter is_frame_control effects = [clearCanvas; requestAnimationFrame] /\
  hd_error effects = Some clearCanvas /\
  last effects clearCanvas = requestAnimationFrame /\
  ~ In preventDefault effects /\
  ~ In (addEventListener "keydown") effects.
Proof.
  cbn zeta. unfold run. cbn [snd].
  set (this' := updateGameWindow now rnd this).
  assert (Hd : forall e : Effect, In e (drawGameWindow this') ->
             is_frame_control e = false /\ e <> preventDefault
             /\ e <> addEventListener "keydown").
  { intros e He. unfold drawGameWindow, drawScore, drawMenuMessages,
      drawMenuMessage in He.
    destruct (paused this'), (Skier_state (skier this')); cbn in He;
      repeat (destruct He as [<- | He];
              [repeat split; discriminate|]); contradiction. }
  repeat split.
  - cbn [app filter is_frame_control]. rewrite filter_app.
    assert (Hf : filter is_frame_control (drawGameWindow this') = []).
    { generalize Hd. generalize (drawGameWindow this') as l.
      induction l as [|e l IH]; intros Hl; [reflexivity|].
      cbn [filter]. destruct (Hl e (or_introl eq_refl)) as (-> & _).
      apply IH. intros e' He'. apply Hl. right. exact He'. }
    rewrite Hf. reflexivity.
  - rewrite app_assoc, last_last. reflexivity.
  - cbn [app In]. intros [H | H]; [discriminate|].
    apply in_app_iff in H. destruct H as [H | [H | []]]; [|discriminate].
    destruct (Hd _ H) as (_ & Hne & _). congruence.
  - cbn [app In]. intros [H | H]; [discriminate|].
    apply in_app_iff in H. destruct H as [H | [H | []]]; [|discriminate].
    destruct (Hd _ H) as (_ & _ & Hne). congruence.
Qed.

End MoreGameFacts.

(** ** The further statements on the sample game *)

Section MoreExamples.
Local Existing Instance Sample.constants.
Local Existing Instance Sample.entities.

Lemma X7_other_keys_keep_pause_witness :
  paused (fst (handleKeyDown "ArrowLeft" Sample.game0_paused)) = true.
Proof.
  destruct (X7_other_keys_keep_pause "ArrowLeft" Sample.game0_paused)
    as [_ H].
  - discriminate.
  - discriminate.
  - exact H.
Defined.

Lemma X8_pause_resume_witness :
  resume (pause Sample.game0) = Sample.game0.
Proof.
  exact (proj1 (X8_pause_resume Sample.game0 eq_refl)).
Defined.

Lemma X9_pause_key_twice_witness :
  fst (handleKeyDown "Escape" (fst (handleKeyDown "Escape" Sample.game0)))
  = Sample.game0.
Proof.
  apply (X9_pause_key_twice "Escape" Sample.game0).
  - right. reflexivity.
  - reflexivity.
  - reflexivity.
Defined.

Lemma X12_window_before_move_witness :
  gameWindow (updateGameWindow 2000 [] Sample.game0)
  = gameWindow (calculateGameWindow Sample.game0).
Proof.
  exact (proj1 (X12_window_before_move 2000 [] Sample.game0 eq_refl)).
Defined.

Lemma X13_tick_order_witness :
  gameTime (updateGameWindow 2000 [] Sample.game0) = 2000%Z.
Proof.
  pose proof (X13_tick_order 2000 [] Sample.game0 eq_refl)
    as (_ & _ & H & _).
  exact H.
Defined.

Lemma X15_paused_frames_freeze_witness :
  fst (perform_all
         [call_run 2000 []; call_drawGameWindow; call_run 2016 []]
         Sample.game0_paused)
  = Sample.game0_paused.
Proof.
  apply X15_paused_frames_freeze; reflexivity.
Defined.

(** The window lags the skier by one tick: after the first tick the skier
    is at (0, 10) and the window is still the one around (0, 0). *)
Example window_lags_skier :
  position (skier (updateGameWindow 2000 [] Sample.game0)) = mkPosition (0 + 0) (0 + 10)
  /\ top (gameWindow (updateGameWindow 2000 [] Sample.game0)) = 0 - 500 / 2.
Proof. split; reflexivity. Qed.

End MoreExamples.

(** ** A new game *)

Section NewGame.
Context {K : Constants} {E : Entities}.

(** X18: a game is constructed unpaused, with score 0, its clock at the
    time of construction and its window around the new skier, and its
    construction registers the keydown listener once and nothing else; its
    first frame therefore updates at once: after it the score is the points
    of the state the skier is created in. *)
Theorem X18_new_game_first_frame (now now' : Z) (rnd rnd' : Random) :
  let this := fst (constructor now rnd) in
  paused this = false /\
  score this = 0%Z /\
  gameTime this = now /\
  gameWindow this = gameWindow (calculateGameWindow this) /\
  snd (constructor now rnd) = [addEventListener "keydown"] /\
  score (fst (run now' rnd' this)) = points (Skier_state (skier this)) /\
  gameTime (fst (run now' rnd' this)) = now'.
Proof.
  cbn zeta.
  assert (Hp : paused (fst (constructor now rnd)) = false) by reflexivity.
  repeat split.
  - unfold run. cbn [fst]. rewrite updateGameWindow_score, Hp. reflexivity.
  - unfold run. cbn [fst].
    rewrite (updateGameWindow_unpaused now' rnd' _ Hp). reflexivity.
Qed.

End NewGame.
